(** * CholLinearOperator: a lazily evaluated matrix kept as a triangular factor

    Shallow embedding of [linear_operator/operators/chol_linear_operator.py].

    Numbers are taken in an exact field [F] (the rationals for the concrete
    computations), so every "within tolerance" of the numerical code becomes an
    equation.  A tensor whose shape is [bs ++ [:: m; k]] is a family of
    [m x k] matrices indexed by the flattened batch index ['I_(numel bs)];
    the kernels of torch act on such a family one batch element at a time. *)

From HB Require Import structures.
From Stdlib Require Import String.
From mathcomp Require Import boot order algebra.

Set Implicit Arguments.
Unset Strict Implicit.
Unset Printing Implicit Defensive.

Import Order.TTheory GRing.Theory Num.Theory.
Local Open Scope ring_scope.

(** ** Shapes *)

(** [torch.Size.numel()]: the product of the dimensions. *)
Definition numel (shape : seq nat) : nat := foldr muln 1%N shape.

(** [tensor.dim()] / [tensor.ndim]. *)
Definition ndim (shape : seq nat) : nat := size shape.

(** Python's [shape[-1]] and [shape[-2]] (0 when the index is out of range:
    the callers below only index dimensions that exist). *)
Definition dim_m1 (shape : seq nat) : nat := nth 0%N (rev shape) 0.
Definition dim_m2 (shape : seq nat) : nat := nth 0%N (rev shape) 1.

(** ** Dense batched tensors *)

Section Tensors.

Variable F : fieldType.
Variable bs : seq nat.

(** shape [bs ++ [:: m; k]] *)
Definition tensor2 (m k : nat) : Type := {ffun 'I_(numel bs) -> 'M[F]_(m, k)}.
(** shape [bs ++ [:: k]] *)
Definition tensor1 (k : nat) : Type := {ffun 'I_(numel bs) -> 'rV[F]_k}.
(** shape [bs] *)
Definition tensor0 : Type := {ffun 'I_(numel bs) -> F}.

(** [A @ B] *)
Definition matmul m k p (A : tensor2 m k) (B : tensor2 k p) : tensor2 m p :=
  [ffun b => A b *m B b].

(** [A.mT], the transpose of the last two dimensions *)
Definition mT m k (A : tensor2 m k) : tensor2 k m := [ffun b => (A b)^T].

(** [A ** 2], elementwise *)
Definition pow2 m k (A : tensor2 m k) : tensor2 m k :=
  [ffun b => map_mx (fun x => x ^+ 2) (A b)].

(** [A.sum(-1)] on a tensor with at least two dimensions *)
Definition sum_m1 m k (A : tensor2 m k) : tensor1 m :=
  [ffun b => \row_i \sum_j A b i j].

(** [A.sum(dim=-2)] *)
Definition sum_m2 m k (A : tensor2 m k) : tensor1 k :=
  [ffun b => \row_j \sum_i A b i j].

(** [v.sum(-1)] on the last dimension of a [tensor1] *)
Definition sum_last k (v : tensor1 k) : tensor0 :=
  [ffun b => \sum_j v b 0 j].

(** [torch.diagonal(A, dim1=-2, dim2=-1)] *)
Definition diagonal n (A : tensor2 n n) : tensor1 n :=
  [ffun b => \row_i A b i i].

(** [torch.eye(n)], broadcast over the batch *)
Definition eye n : tensor2 n n := [ffun _ => 1%:M].

(** [torch.tril(A)] and [torch.triu(A)] *)
Definition tril n (A : tensor2 n n) : tensor2 n n :=
  [ffun b => \matrix_(i, j) if (j <= i)%N then A b i j else 0].
Definition triu n (A : tensor2 n n) : tensor2 n n :=
  [ffun b => \matrix_(i, j) if (i <= j)%N then A b i j else 0].

(** Lower triangular: every entry strictly above the diagonal is zero, in
    every batch element.  Upper triangular: the same for the transpose.
    Neither says anything about the diagonal. *)
Definition is_lower n (A : tensor2 n n) : bool := [forall b, is_trig_mx (A b)].
Definition is_upper n (A : tensor2 n n) : bool := [forall b, is_trig_mx (A b)^T].

(** [v.unsqueeze(-1)] of a 1-D tensor of shape [[:: n]]: one column, which
    the batched kernels see as the same column for every batch element. *)
Definition unsqueeze_m1 n (v : 'rV[F]_n) : tensor2 n 1 := [ffun _ => v^T].

(** [A.squeeze(-1)] of a tensor whose last dimension is 1 *)
Definition squeeze_m1 n (A : tensor2 n 1) : tensor1 n := [ffun b => (A b)^T].

(** [A @ v] with a vector as right operand *)
Definition matvec m k (A : tensor2 m k) (v : tensor1 k) : tensor1 m :=
  [ffun b => v b *m (A b)^T].

(** A tensor of batch shape [bs] with zero, one or two trailing dimensions,
    its shape being part of the value as it is at run time. *)
Inductive Tensor : Type :=
  | Tensor0 (x : tensor0)
  | Tensor1 (k : nat) (v : tensor1 k)
  | Tensor2 (m k : nat) (A : tensor2 m k).

Definition shape (t : Tensor) : seq nat :=
  match t with
  | Tensor0 _ => bs
  | Tensor1 k _ => bs ++ [:: k]
  | Tensor2 m k _ => bs ++ [:: m; k]
  end.

End Tensors.

(** ** Errors and warnings *)

Inductive exn : Type :=
  | ValueError (msg : string)
    (** "inv_quad_logdet only operates on (batches of) square ... Got a {} of
        size {}." *)
  | RuntimeError_not_square (class_name : string) (size : seq nat)
    (** "LinearOperator (size={}) cannot be multiplied with right-hand-side
        Tensor (size={})." *)
  | RuntimeError_cannot_multiply (op_shape rhs_shape : seq nat)
    (** "LinearOperator (size={}) and right-hand-side Tensor (size={}) should
        have the same number of dimensions." *)
  | RuntimeError_ndim (op_shape rhs_shape : seq nat)
    (** torch's "Dimension out of range (expected to be in range of [-1, 0],
        but got -2)", raised by a reduction over a dimension that the tensor
        does not have *)
  | IndexError (msg : string).

Inductive result (A : Type) : Type :=
  | Ok (a : A)
  | Raise (e : exn).
Arguments Raise {A} e.

Inductive warning : Type :=
  | DeprecationWarning (msg : string).

(** ** The triangular factor (external collaborator) *)

Module Tri.
Section Tri.

Variable F : fieldType.
Variable bs : seq nat.
Variable n : nat.

(** [TriangularLinearOperator(tensor, upper)]: a dense tensor and its
    orientation tag. *)
Record TriangularLinearOperator : Type := Make {
  tensor : tensor2 F bs n n;
  upper : bool
}.

(** The stored tensor is triangular, lower or upper, in every batch
    element. *)
Definition triangular (R : TriangularLinearOperator) : bool :=
  [forall b, is_trig_mx (tensor R b) || is_trig_mx (tensor R b)^T].

(** The tag agrees with the entries: an upper factor is upper triangular, a
    lower factor lower triangular. *)
Definition well_tagged (R : TriangularLinearOperator) : bool :=
  if upper R then is_upper (tensor R) else is_lower (tensor R).

(** Every batch element is invertible (nonzero diagonal, for a factor
    that is triangular). *)
Definition invertible (R : TriangularLinearOperator) : bool :=
  [forall b, tensor R b \in unitmx].

(** Modelled from the spec: [TriangularLinearOperator.to_dense] is not
    under src/; the factor materialises as its stored tensor. *)
Definition to_dense (R : TriangularLinearOperator) : tensor2 F bs n n :=
  tensor R.

(** Modelled from the spec: [TriangularLinearOperator._transpose_nonbatch]
    is not under src/; "all mutating operations (transpose, inverse) return
    new factor instances", the transpose of a lower factor being upper. *)
Definition _transpose_nonbatch (R : TriangularLinearOperator) :
    TriangularLinearOperator :=
  Make (mT (tensor R)) (~~ upper R).

(** Modelled from the spec: [TriangularLinearOperator._diagonal] is not under
    src/; "diagonal extraction". *)
Definition _diagonal (R : TriangularLinearOperator) : tensor1 F bs n :=
  diagonal (tensor R).

(** Modelled from the spec: [TriangularLinearOperator.solve] is not under
    src/; the "triangular-solve (forward/back substitution)" kernel is
    "assumed correct": it returns the solution [Y] of [R Y = rhs], which for
    an invertible [R] is [R^-1 rhs].  This is the kernel on a factor that
    keeps its invariant, the tag agreeing with the entries; [substitution]
    below is the kernel on any factor. *)
Definition solve k (R : TriangularLinearOperator) (rhs : tensor2 F bs n k) :
    tensor2 F bs n k :=
  [ffun b => invmx (tensor R b) *m rhs b].

(** Modelled from the spec: [TriangularLinearOperator.inverse] is not under
    src/; "inverse() -> factor", the solve against the identity, with the
    tag of the factor kept. *)
Definition inverse (R : TriangularLinearOperator) : TriangularLinearOperator :=
  Make (solve R (eye F bs n)) (upper R).

(** Modelled from the spec: [TriangularLinearOperator._cholesky_solve] is not
    under src/; "solve a system whose matrix is R R^T ... with the stored
    orientation - this performs a forward solve followed by a back solve (or
    vice versa)": the system matrix is [R^T R] when [upper] and [R R^T]
    otherwise. *)
Definition _cholesky_solve k (R : TriangularLinearOperator)
    (rhs : tensor2 F bs n k) (upper : bool) : tensor2 F bs n k :=
  if upper then solve R (solve (_transpose_nonbatch R) rhs)
  else solve (_transpose_nonbatch R) (solve R rhs).

(** Modelled from the spec: the constructor applied to a factor
    ([TriangularLinearOperator(Linv, upper=...)]) keeps the tensor of the
    factor and installs the new tag. *)
Definition retag (R : TriangularLinearOperator) (u : bool) :
    TriangularLinearOperator :=
  Make (tensor R) u.

(** The triangle that the tag names, diagonal included. *)
Definition tagged_triangle (R : TriangularLinearOperator) : tensor2 F bs n n :=
  if upper R then triu (tensor R) else tril (tensor R).

(** Modelled from the spec: the "triangular-solve (forward/back
    substitution)" kernel as a substitution runs it: forward substitution on
    a factor tagged lower, back substitution on a factor tagged upper, each
    reading the diagonal and the triangle that the tag names and no entry on
    the other side ("strictly zero entries on the wrong side of the diagonal"
    is an invariant of the factor, not something the kernel tests).  On a
    factor whose tag agrees with its entries this is [solve]. *)
Definition substitution k (R : TriangularLinearOperator)
    (rhs : tensor2 F bs n k) : tensor2 F bs n k :=
  [ffun b => invmx (tagged_triangle R b) *m rhs b].

(** Modelled from the spec: [inverse] with the kernel run as a
    substitution. *)
Definition inverse_by_substitution (R : TriangularLinearOperator) :
    TriangularLinearOperator :=
  Make (substitution R (eye F bs n)) (upper R).

End Tri.
End Tri.

(** ** The root-factor operator (external collaborator) *)

Module Root.
Section Root.

Variable F : fieldType.
Variable bs : seq nat.
Variable n : nat.

(** [RootLinearOperator(root)], the base class of the Cholesky operator. *)
Record RootLinearOperator : Type := Make {
  root : Tri.TriangularLinearOperator F bs n
}.

(** Modelled from the spec: [RootLinearOperator.to_dense] is not under src/;
    a root-factor operator is "an operator representing A = R R^T for some
    factor R". *)
Definition to_dense (S : RootLinearOperator) : tensor2 F bs n n :=
  matmul (Tri.to_dense (root S)) (Tri.to_dense (Tri._transpose_nonbatch (root S))).

End Root.
End Root.

(** ** The members of the base class that [inv_quad_logdet] reads *)

Module LinearOperator.

(** Modelled from the spec: [LinearOperator.size], [shape], [dim] and
    [is_square] are not under src/; an operator has a batch shape followed by
    the two dimensions of its matrices, and is square when these agree. *)
Record size : Type := Size {
  batch_shape : seq nat;
  nrows : nat;
  ncols : nat
}.

Definition shape (sz : size) : seq nat :=
  batch_shape sz ++ [:: nrows sz; ncols sz].

Definition dim (sz : size) : nat := ndim (shape sz).

Definition is_square (sz : size) : bool := nrows sz == ncols sz.

End LinearOperator.

(** ** The Cholesky operator *)

Module Chol.
Section Chol.

Variable F : fieldType.
Variable bs : seq nat.
Variable n : nat.

Notation factor := (Tri.TriangularLinearOperator F bs n).

(** The state set up by [__init__]: [super().__init__(chol)] stores the
    factor as [self.root], then [self.upper = upper]. *)
Record CholLinearOperator : Type := Make {
  root : factor;
  upper : bool
}.

(** [_chol_diag] *)
Definition _chol_diag (self : CholLinearOperator) : tensor1 F bs n :=
  Tri._diagonal (root self).

(** [_cholesky(upper)] *)
Definition _cholesky (self : CholLinearOperator) (upper' : bool) : factor :=
  if upper' == upper self then root self
  else Tri._transpose_nonbatch (root self).

(** [_diagonal] *)
Definition _diagonal (self : CholLinearOperator) : tensor1 F bs n :=
  sum_m1 (pow2 (Tri.to_dense (root self))).


(** [to_dense] *)
Definition to_dense (self : CholLinearOperator) : tensor2 F bs n n :=
  let root := root self in
  if upper self then
    matmul (Tri.to_dense (Tri._transpose_nonbatch root)) (Tri.to_dense root)
  else
    matmul (Tri.to_dense root) (Tri.to_dense (Tri._transpose_nonbatch root)).

(** [__init__(chol, upper)]: the argument is a typed factor or, on the
    deprecated path, a bare dense tensor. *)
Inductive chol_arg : Type :=
  | Factor (chol : factor)
  | Dense (chol : tensor2 F bs n n).

Definition deprecation_msg : string :=
  "chol argument to CholLinearOperator should be a TriangularLinearOperator. Passing a dense tensor will cause errors in future versions.".

Definition __init__ (chol : chol_arg) (upper : bool) :
    seq warning * result CholLinearOperator :=
  match chol with
  | Factor chol => ([::], Ok (Make chol upper))
  | Dense chol =>
      let warnings := [:: DeprecationWarning deprecation_msg] in
      if tril chol == chol then
        (warnings, Ok (Make (Tri.Make chol false) upper))
      else if triu chol == chol then
        (warnings, Ok (Make (Tri.Make chol true) upper))
      else
        (warnings, Raise (ValueError "chol must be either lower or upper triangular"))
  end.

(** [inverse]: [CholLinearOperator(TriangularLinearOperator(Linv, upper=not
    self.upper), upper=not self.upper)]; the constructor receives a typed
    factor, so it neither warns nor raises. *)
Definition inverse (self : CholLinearOperator) : CholLinearOperator :=
  let Linv := Tri.inverse (root self) in
  Make (Tri.retag Linv (~~ upper self)) (~~ upper self).

(** [inverse], with [self.root.inverse()] run as a substitution on the
    triangle that the tag of the factor names. *)
Definition inverse_by_substitution (self : CholLinearOperator) :
    CholLinearOperator :=
  let Linv := Tri.inverse_by_substitution (root self) in
  Make (Tri.retag Linv (~~ upper self)) (~~ upper self).

(** [inv_quad(tensor, reduce_inv_quad)] *)
Definition inv_quad k (self : CholLinearOperator) (tensor : tensor2 F bs n k)
    (reduce_inv_quad : bool) : Tensor F bs :=
  let R :=
    if upper self then Tri.solve (Tri._transpose_nonbatch (root self)) tensor
    else Tri.solve (root self) tensor in
  let inv_quad_term := sum_m2 (pow2 R) in
  if (numel (bs ++ [:: k]) != 0%N) && reduce_inv_quad then
    Tensor0 (sum_last inv_quad_term)
  else Tensor1 inv_quad_term.

(** The tensor [R] that [inv_quad] solves for. *)
Definition solved k (self : CholLinearOperator) (tensor : tensor2 F bs n k) :
    tensor2 F bs n k :=
  if upper self then Tri.solve (Tri._transpose_nonbatch (root self)) tensor
  else Tri.solve (root self) tensor.

(** [root_inv_decomposition(method, initial_vectors, test_vectors)] *)
Definition root_inv_decomposition (self : CholLinearOperator)
    (method : option string) (initial_vectors test_vectors : option (Tensor F bs)) :
    Root.RootLinearOperator F bs n :=
  let inv_root := Tri.inverse (root self) in
  Root.Make (Tri._transpose_nonbatch inv_root).

(** The right-hand side of [solve]: a 1-D tensor of shape [[:: n]] or a
    tensor of shape [bs ++ [:: n; k]]. *)
Inductive rhs_tensor : Type :=
  | Rhs1 (v : 'rV[F]_n)
  | Rhs2 (k : nat) (A : tensor2 F bs n k).

Definition rhs_shape (t : rhs_tensor) : seq nat :=
  match t with
  | Rhs1 _ => [:: n]
  | Rhs2 k _ => bs ++ [:: n; k]
  end.

(** The left tensor of [solve].  Next to a right-hand side of shape
    [bs ++ [:: n; k]] it is a tensor of shape [bs ++ [:: p; n]].  Next to a
    1-D right-hand side it is such a tensor for an unbatched operator only:
    there [res] is 1-D and [left_tensor @ res] is the product of a matrix
    and a vector.  Against a batched operator [res] has the shape
    [bs ++ [:: n]], which torch's [@] reads as a batch of matrices with [n]
    columns; that product (a shape error unless [n] is the last batch
    dimension) is not a product with the solution and has no place in this
    type. *)
Record vector_left (p : nat) : Type := VectorLeft {
  unbatched_operator : bs = [::];
  left_matrix : tensor2 F bs p n
}.

Definition left_of (p : nat) (right_tensor : rhs_tensor) : Type :=
  match right_tensor with
  | Rhs1 _ => vector_left p
  | Rhs2 _ _ => tensor2 F bs p n
  end.

(** [solve(right_tensor, left_tensor)] *)
Definition solve p (self : CholLinearOperator) (right_tensor : rhs_tensor) :
    option (left_of p right_tensor) -> Tensor F bs :=
  match right_tensor with
  | Rhs1 v => fun left_tensor =>
      (* is_vector *)
      let right_tensor := unsqueeze_m1 bs v in
      let res := Tri._cholesky_solve (root self) right_tensor (upper self) in
      let res := squeeze_m1 res in
      match left_tensor with
      | Some left_tensor => Tensor1 (matvec (left_matrix left_tensor) res)
      | None => Tensor1 res
      end
  | Rhs2 k right_tensor => fun left_tensor =>
      let res := Tri._cholesky_solve (root self) right_tensor (upper self) in
      match left_tensor with
      | Some left_tensor => Tensor2 (matmul left_tensor res)
      | None => Tensor2 res
      end
  end.

(** [self._chol_diag.pow(2).log().sum(-1)], for a logarithm [log] on [F] *)
Definition logdet_term (log : F -> F) (self : CholLinearOperator) : Tensor F bs :=
  Tensor0 [ffun b => \sum_j log (_chol_diag self b 0 j ^+ 2)].

End Chol.

Arguments solve {F bs n p} self right_tensor _.

(** [inv_quad_logdet(inv_quad_rhs, logdet, reduce_inv_quad)].  The method
    reads the size and the class name of [self] and calls [self.inv_quad]
    and [self._chol_diag]; these are the parameters of the section.  An
    error raised by [self.inv_quad] leaves the method as it is. *)
Section InvQuadLogdet.

Variables tensor_t result_t : Type.
Variable tensor_shape : tensor_t -> seq nat.
Variable self_size : LinearOperator.size.
Variable self_class_name : string.
Variable self_inv_quad : tensor_t -> bool -> result result_t.
Variable self_logdet_term : result_t.

Definition inv_quad_logdet (inv_quad_rhs : option tensor_t)
    (logdet reduce_inv_quad : bool) :
    result (option result_t * option result_t) :=
  let self_shape := LinearOperator.shape self_size in
  if ~~ LinearOperator.is_square self_size then
    Raise (RuntimeError_not_square self_class_name self_shape)
  else
    let check :=
      match inv_quad_rhs with
      | Some rhs =>
          let rhs_shape := tensor_shape rhs in
          if (LinearOperator.dim self_size == 2) && (ndim rhs_shape == 1) then
            if dim_m1 self_shape != numel rhs_shape then
              Some (RuntimeError_cannot_multiply self_shape rhs_shape)
            else None
          else if LinearOperator.dim self_size != ndim rhs_shape then
            Some (RuntimeError_ndim self_shape rhs_shape)
          else if dim_m1 self_shape != dim_m2 rhs_shape then
            Some (RuntimeError_cannot_multiply self_shape rhs_shape)
          else None
      | None => None
      end in
    match check with
    | Some e => Raise e
    | None =>
        let inv_quad_term :=
          match inv_quad_rhs with
          | Some rhs =>
              match self_inv_quad rhs reduce_inv_quad with
              | Ok inv_quad_term => Ok (Some inv_quad_term)
              | Raise e => Raise e
              end
          | None => Ok None
          end in
        match inv_quad_term with
        | Ok inv_quad_term =>
            let logdet_term := if logdet then Some self_logdet_term else None in
            Ok (inv_quad_term, logdet_term)
        | Raise e => Raise e
        end
    end.

End InvQuadLogdet.

Section Typed.

Variable F : fieldType.
Variable bs : seq nat.
Variable n : nat.

(** The size of the operator [R R^T] (or [R^T R]) of an [n x n] factor. *)
Definition size (self : CholLinearOperator F bs n) : LinearOperator.size :=
  LinearOperator.Size bs n n.

(** A right-hand side with some number [k] of columns. *)
Definition columns : Type := {k : nat & tensor2 F bs n k}.

Definition columns_shape (t : columns) : seq nat := bs ++ [:: n; projT1 t].

(** [inv_quad_logdet] on a Cholesky operator, with a right-hand side that
    has columns; on such a tensor [inv_quad] returns. *)
Definition inv_quad_logdet_chol (log : F -> F) (self : CholLinearOperator F bs n) :
    option columns -> bool -> bool ->
    result (option (Tensor F bs) * option (Tensor F bs)) :=
  inv_quad_logdet columns_shape (size self) "CholLinearOperator"
    (fun t reduce_inv_quad => Ok (inv_quad self (projT2 t) reduce_inv_quad))
    (logdet_term log self).

End Typed.

(** An unbatched operator (shape [[:: n; n]]) takes a 1-D right-hand side
    through the checks of [inv_quad_logdet]. *)
Section Unbatched.

Variable F : fieldType.
Variable n : nat.

(** [inv_quad(tensor, reduce_inv_quad)] of an unbatched operator on a tensor
    of either kind, 1-D or with columns, as [inv_quad_logdet] hands it over.
    [inv_quad] has no [unsqueeze], unlike [solve]: the [R] it gets from the
    triangular solve of a 1-D tensor is 1-D, and [(R ** 2).sum(dim=-2)]
    asks for a dimension that [R] does not have.
    Modelled from the spec: the triangular solve of the factor is not under
    src/; it keeps the rank of its right-hand side, "a 1-D right-hand side
    is treated as a single column, solved, then squeezed back to 1-D". *)
Definition inv_quad_any_rank (self : CholLinearOperator F [::] n)
    (tensor : rhs_tensor F [::] n) (reduce_inv_quad : bool) :
    result (Tensor F [::]) :=
  match tensor with
  | Rhs1 _ =>
      Raise (IndexError "Dimension out of range (expected to be in range of [-1, 0], but got -2)")
  | Rhs2 k tensor => Ok (inv_quad self tensor reduce_inv_quad)
  end.

(** [inv_quad_logdet] on an unbatched Cholesky operator, with a right-hand
    side of either kind. *)
Definition inv_quad_logdet_any_rank (log : F -> F)
    (self : CholLinearOperator F [::] n) :
    option (rhs_tensor F [::] n) -> bool -> bool ->
    result (option (Tensor F [::]) * option (Tensor F [::])) :=
  inv_quad_logdet (@rhs_shape F [::] n) (size self) "CholLinearOperator"
    (inv_quad_any_rank self) (logdet_term log self).

End Unbatched.

End Chol.

(** ** Concrete inputs *)

(** The matrix whose rows are listed. *)
Definition mx_of_rows (F : fieldType) (m k : nat) (rows : seq (seq F)) :
    'M[F]_(m, k) :=
  \matrix_(i, j) nth 0 (nth [::] rows i) j.

(** An unbatched tensor: batch shape [[::]], a single batch element. *)
Definition unbatched (F : fieldType) (m k : nat) (A : 'M[F]_(m, k)) :
    tensor2 F [::] m k :=
  [ffun _ => A].

(** R = [[1, 2], [0, 3]], upper triangular *)
Definition upper_12_03 : tensor2 rat [::] 2 2 :=
  unbatched (mx_of_rows 2 2 [:: [:: 1; 2%:R]; [:: 0; 3%:R]]).

(** R = [[2, 0], [1, 3]], the lower triangular factor of the scenario of the
    specification *)
Definition lower_20_13 : tensor2 rat [::] 2 2 :=
  unbatched (mx_of_rows 2 2 [:: [:: 2%:R; 0]; [:: 1; 3%:R]]).

(** R = [[1, 1], [0, 1]], upper triangular *)
Definition upper_11_01 : tensor2 rat [::] 2 2 :=
  unbatched (mx_of_rows 2 2 [:: [:: 1; 1]; [:: 0; 1]]).

(** ** The guard of [inv_quad_logdet], in the words of the specification *)

(** The shape rule in the words of the specification: the numbers of
    dimensions agree and the last dimension of the operator is the
    second-to-last of the right-hand side; or the operator is unbatched, the
    right-hand side is 1-D and its length is the last dimension of the
    operator. *)
Definition rhs_compatible (self_size : LinearOperator.size) (rhs_shape : seq nat) :
    bool :=
  [&& LinearOperator.dim self_size == ndim rhs_shape
    & LinearOperator.ncols self_size == dim_m2 rhs_shape]
  || [&& LinearOperator.batch_shape self_size == [::], ndim rhs_shape == 1%N
       & LinearOperator.ncols self_size == numel rhs_shape].

(** A shape-mismatch error that carries both shapes. *)
Definition identifies_shapes (e : exn) (op_shape rhs_shape : seq nat) : bool :=
  match e with
  | RuntimeError_cannot_multiply s1 s2 | RuntimeError_ndim s1 s2 =>
      (s1 == op_shape) && (s2 == rhs_shape)
  | _ => false
  end.

(** ** Concrete inputs, continued *)

(** The operator of the scenario of the specification: R = [[2, 0], [1, 3]],
    lower, so that A = [[4, 2], [2, 10]]. *)
Definition scenario : Chol.CholLinearOperator rat [::] 2 :=
  Chol.Make (Tri.Make lower_20_13 false) false.

(** The right-hand side [4, 2] as a 1-D tensor and as a column. *)
Definition rhs_42 : 'rV[rat]_2 := mx_of_rows 1 2 [:: [:: 4%:R; 2%:R]].
Definition column_42 : tensor2 rat [::] 2 1 :=
  unbatched (mx_of_rows 2 1 [:: [:: 4%:R]; [:: 2%:R]]).


(** An operator of shape [0, 0] and a right-hand side of shape [0, 3]. *)
Definition empty_operator : Chol.CholLinearOperator rat [::] 0 :=
  Chol.Make (Tri.Make (unbatched 0) false) false.
Definition rhs_0x3 : tensor2 rat [::] 0 3 := unbatched 0.

(** An operator of shape [0, 2, 2] (a batch of size zero) and a right-hand
    side of shape [0, 2, 3]. *)
Definition empty_batch_operator : Chol.CholLinearOperator rat [:: 0%N] 2 :=
  Chol.Make (Tri.Make [ffun _ => 0] false) false.
Definition empty_batch_rhs : tensor2 rat [:: 0%N] 2 3 := [ffun _ => 0].

(** The zero matrix and the diagonal matrix diag(2, 3). *)
Definition zero_2x2 : tensor2 rat [::] 2 2 := unbatched 0.
Definition diag_23 : tensor2 rat [::] 2 2 :=
  unbatched (mx_of_rows 2 2 [:: [:: 2%:R; 0]; [:: 0; 3%:R]]).

(** The inverse [[1/2, 0], [-1/6, 1/3]] of the factor of the scenario, and
    the diagonal matrix diag(4, 9). *)
Definition lower_20_13_inv : tensor2 rat [::] 2 2 :=
  unbatched (mx_of_rows 2 2 [:: [:: 2%:R^-1; 0]; [:: - 6%:R^-1; 3%:R^-1]]).
Definition diag_49 : tensor2 rat [::] 2 2 :=
  unbatched (mx_of_rows 2 2 [:: [:: 4%:R; 0]; [:: 0; 9%:R]]).


(** The rationals have no real logarithm; the 2-adic valuation is a function
    on them that turns products into sums. *)
Definition log2adic (x : rat) : rat :=
  (logn 2 `|numq x|)%:R - (logn 2 `|denq x|)%:R.

Ltac ord2 i := case: i => [[|[|?]] ?] //=.

(** * Properties *)

(** ** Matrix identities behind the operator *)

Section Gram.

Variable F : fieldType.
Variable n : nat.
Implicit Types R : 'M[F]_n.

Lemma invmx_gram_lower R :
  R \in unitmx -> invmx (R *m R^T) = (invmx R)^T *m invmx R.
Proof.
move=> uR; have uRT : R^T \in unitmx by rewrite unitmx_tr.
have uG : R *m R^T \in unitmx by rewrite unitmx_mul uR.
apply: (can_inj (mulKmx uG)).
by rewrite mulmxV // trmx_inv -mulmxA (mulmxA R^T) mulmxV // mul1mx mulmxV.
Qed.

Lemma invmx_gram_upper R :
  R \in unitmx -> invmx (R^T *m R) = invmx R *m (invmx R)^T.
Proof.
move=> uR; have uRT : R^T \in unitmx by rewrite unitmx_tr.
have uG : R^T *m R \in unitmx by rewrite unitmx_mul uRT.
apply: (can_inj (mulKmx uG)).
by rewrite mulmxV // trmx_inv -mulmxA (mulmxA R) mulmxV // mul1mx mulmxV.
Qed.

Lemma trig_unitmx (A : 'M[F]_n) :
  is_trig_mx A -> (forall i, A i i != 0) -> A \in unitmx.
Proof.
move=> trigA nz; rewrite unitmxE (det_trig trigA) unitfE.
by apply/prodf_neq0 => i _.
Qed.

Lemma invmx_from_mulmx1 (A B : 'M[F]_n) :
  A *m B = 1%:M -> invmx A = B.
Proof.
move=> AB1; have [uA _] := mulmx1_unit AB1.
by rewrite -[LHS]mulmx1 -AB1 mulKmx.
Qed.

End Gram.

(** ** Dense form and diagonal *)

Section DenseDiagonal.

Variable F : fieldType.
Variable bs : seq nat.
Variable n : nat.
Implicit Types self : Chol.CholLinearOperator F bs n.

Lemma to_denseE self b :
  Chol.to_dense self b =
  let R := Tri.tensor (Chol.root self) b in
  if Chol.upper self then R^T *m R else R *m R^T.
Proof. by rewrite /Chol.to_dense; case: (Chol.upper self); rewrite !ffunE. Qed.

(** What [_diagonal] computes: the sums of squares along the rows. *)
Lemma _diagonalE self b i :
  Chol._diagonal self b 0 i = \sum_j Tri.tensor (Chol.root self) b i j ^+ 2.
Proof.
rewrite /Chol._diagonal /sum_m1 /pow2 /Tri.to_dense !ffunE mxE.
by apply: eq_bigr => j _; rewrite mxE.
Qed.

(** The diagonal of the dense form: sums of squares along the rows for the
    lower orientation, along the columns for the upper one. *)
Lemma diagonal_to_denseE self b i :
  diagonal (Chol.to_dense self) b 0 i =
  if Chol.upper self then \sum_j Tri.tensor (Chol.root self) b j i ^+ 2
  else \sum_j Tri.tensor (Chol.root self) b i j ^+ 2.
Proof.
rewrite /diagonal ffunE mxE to_denseE /=.
by case: (Chol.upper self); rewrite mxE; apply: eq_bigr => j _; rewrite mxE expr2.
Qed.

Lemma diagonal_lower self :
  ~~ Chol.upper self -> Chol._diagonal self = diagonal (Chol.to_dense self).
Proof.
move=> /negbTE lo; apply/ffunP => b; apply/rowP => i.
by rewrite _diagonalE diagonal_to_denseE lo.
Qed.

End DenseDiagonal.

(** The triangular kernels on one batch element. *)

Section Kernels.

Variable F : fieldType.
Variable bs : seq nat.
Variable n : nat.
Implicit Types R : Tri.TriangularLinearOperator F bs n.

Lemma tri_invertibleP R :
  reflect (forall b, Tri.tensor R b \in unitmx) (Tri.invertible R).
Proof. exact: forallP. Qed.

Lemma tri_solveE k R (rhs : tensor2 F bs n k) b :
  Tri.solve R rhs b = invmx (Tri.tensor R b) *m rhs b.
Proof. by rewrite ffunE. Qed.

Lemma tri_transposeE R b :
  Tri.tensor (Tri._transpose_nonbatch R) b = (Tri.tensor R b)^T.
Proof. by rewrite ffunE. Qed.

Lemma tri_inverseE R b :
  Tri.tensor (Tri.inverse R) b = invmx (Tri.tensor R b).
Proof. by rewrite /Tri.inverse /= tri_solveE ffunE mulmx1. Qed.

Lemma tri_invertible_inverse R :
  Tri.invertible (Tri.inverse R) = Tri.invertible R.
Proof. by apply: eq_forallb => b; rewrite tri_inverseE unitmx_inv. Qed.

Lemma tri_cholesky_solveE k R (rhs : tensor2 F bs n k) u b :
  Tri.invertible R ->
  Tri._cholesky_solve R rhs u b =
  invmx (if u then (Tri.tensor R b)^T *m Tri.tensor R b
         else Tri.tensor R b *m (Tri.tensor R b)^T) *m rhs b.
Proof.
move=> /tri_invertibleP/(_ b) uR; rewrite /Tri._cholesky_solve.
case: u; rewrite !tri_solveE tri_transposeE.
  by rewrite invmx_gram_upper // trmx_inv !mulmxA.
by rewrite invmx_gram_lower // trmx_inv !mulmxA.
Qed.

End Kernels.

(** ** Inverse *)

Section Inverse.

Variable F : fieldType.
Variable bs : seq nat.
Variable n : nat.
Implicit Types self : Chol.CholLinearOperator F bs n.

Lemma to_dense_inverseE self b :
  Chol.to_dense (Chol.inverse self) b =
  let Rinv := invmx (Tri.tensor (Chol.root self) b) in
  if Chol.upper self then Rinv *m Rinv^T else Rinv^T *m Rinv.
Proof.
rewrite to_denseE /= ffunE ffunE mulmx1.
by case: (Chol.upper self).
Qed.

End Inverse.

(** ** Inverse root decomposition *)

Section RootInv.

Variable F : fieldType.
Variable bs : seq nat.
Variable n : nat.
Implicit Types self : Chol.CholLinearOperator F bs n.

Lemma root_inv_decompositionE self method iv tv b :
  Root.to_dense (Chol.root_inv_decomposition self method iv tv) b =
  (invmx (Tri.tensor (Chol.root self) b))^T *m invmx (Tri.tensor (Chol.root self) b).
Proof. by rewrite /Root.to_dense /= !ffunE mulmx1 trmxK. Qed.

Lemma root_inv_decomposition_hints self method method' iv iv' tv tv' :
  Chol.root_inv_decomposition self method iv tv =
  Chol.root_inv_decomposition self method' iv' tv'.
Proof. by []. Qed.

Lemma root_inv_decomposition_lower self method iv tv :
  Tri.invertible (Chol.root self) -> ~~ Chol.upper self ->
  matmul (Root.to_dense (Chol.root_inv_decomposition self method iv tv))
         (Chol.to_dense self) = eye F bs n.
Proof.
move=> /tri_invertibleP uR /negbTE lo; apply/ffunP => b.
rewrite ffunE root_inv_decompositionE to_denseE /= lo ffunE.
by rewrite -invmx_gram_lower // mulVmx // unitmx_mul unitmx_tr uR.
Qed.

End RootInv.

(** ** Linear solve *)

Section Solve.

Variable F : fieldType.
Variable bs : seq nat.
Variable n : nat.
Implicit Types self : Chol.CholLinearOperator F bs n.




End Solve.

(** ** Quadratic form *)

Section InvQuad.

Variable F : fieldType.
Variable bs : seq nat.
Variable n : nat.
Implicit Types self : Chol.CholLinearOperator F bs n.

Lemma numel_cat s1 s2 : numel (s1 ++ s2) = (numel s1 * numel s2)%N.
Proof. by elim: s1 => [|d s1 IH] /=; rewrite ?mul1n // IH mulnA. Qed.

Lemma numel_eq0 s : (numel s == 0%N) = (0%N \in s).
Proof. by elim: s => [|d s IH] //=; rewrite muln_eq0 IH in_cons eq_sym. Qed.


Lemma inv_quadE k self (T : tensor2 F bs n k) reduce_inv_quad :
  Chol.inv_quad self T reduce_inv_quad =
  if (numel (bs ++ [:: k]) != 0%N) && reduce_inv_quad
  then Tensor0 (sum_last (sum_m2 (pow2 (Chol.solved self T))))
  else Tensor1 (sum_m2 (pow2 (Chol.solved self T))).
Proof. by rewrite /Chol.inv_quad /Chol.solved; case: (Chol.upper self). Qed.


Lemma solved_gram k self (T : tensor2 F bs n k) b :
  Tri.invertible (Chol.root self) ->
  (Chol.solved self T b)^T *m Chol.solved self T b =
  (T b)^T *m invmx (Chol.to_dense self b) *m T b.
Proof.
move=> /tri_invertibleP/(_ b) uR; rewrite to_denseE /Chol.solved /=.
case: (Chol.upper self); rewrite tri_solveE ?tri_transposeE trmx_mul.
  by rewrite invmx_gram_upper // -trmx_inv trmxK !mulmxA.
by rewrite invmx_gram_lower // !mulmxA.
Qed.


(** C9, as amended: when the per-column result is empty (the right-hand
    side has no column, or a batch dimension is zero), the reduction over
    the trailing dimension is skipped whatever the reduce flag, and the
    empty per-column tensor is returned. *)
Theorem inv_quad_empty_unreduced k self (T : tensor2 F bs n k) reduce_inv_quad :
  (k == 0%N) || (0%N \in bs) ->
  [/\ Chol.inv_quad self T reduce_inv_quad = Tensor1 (sum_m2 (pow2 (Chol.solved self T))),
      shape (Chol.inv_quad self T reduce_inv_quad) = bs ++ [:: k]
    & numel (shape (Chol.inv_quad self T reduce_inv_quad)) = 0%N].
Proof.
move=> empty.
have numel0 : numel (bs ++ [:: k]) = 0%N.
  by apply/eqP; rewrite numel_eq0 mem_cat mem_seq1 eq_sym orbC.
by rewrite inv_quadE numel0.
Qed.

End InvQuad.

(** ** Log-determinant *)

Section LogDet.

Variable F : realFieldType.
Variable log : F -> F.
Hypothesis logM : forall x y : F, 0 < x -> 0 < y -> log (x * y) = log x + log y.

Variable bs : seq nat.
Variable n : nat.
Implicit Types self : Chol.CholLinearOperator F bs n.

Lemma log1 : log 1 = 0.
Proof.
have := logM (x := 1) (y := 1) ltr01 ltr01.
by rewrite mulr1 => /(congr1 (fun x => x - log 1)); rewrite subrr addrK.
Qed.

Lemma log_sqr x : 0 < x -> log (x ^+ 2) = 2%:R * log x.
Proof. by move=> x0; rewrite expr2 logM // mulr2n mulrDl mul1r. Qed.

Lemma log_prod (I : Type) (r : seq I) (d : I -> F) :
  (forall i, 0 < d i) -> log (\prod_(i <- r) d i) = \sum_(i <- r) log (d i).
Proof.
move=> d0; elim: r => [|i r IH]; first by rewrite !big_nil log1.
by rewrite !big_cons logM ?IH // prodr_gt0.
Qed.

Lemma tri_det (R : Tri.TriangularLinearOperator F bs n) b :
  is_trig_mx (Tri.tensor R b) || is_trig_mx (Tri.tensor R b)^T ->
  \det (Tri.tensor R b) = \prod_i Tri.tensor R b i i.
Proof.
case/orP=> [/det_trig //|/det_trig]; rewrite det_tr => ->.
by apply: eq_bigr => i _; rewrite mxE.
Qed.

Lemma chol_det self b :
  \det (Chol.to_dense self b) = \det (Tri.tensor (Chol.root self) b) ^+ 2.
Proof.
by rewrite to_denseE /=; case: (Chol.upper self); rewrite det_mulmx det_tr expr2.
Qed.

Lemma cholesky_diagonal self u b i :
  Tri._diagonal (Chol._cholesky self u) b 0 i = Tri.tensor (Chol.root self) b i i.
Proof.
rewrite /Chol._cholesky; case: (u == Chol.upper self).
  by rewrite /Tri._diagonal ffunE mxE.
by rewrite /Tri._diagonal /= !ffunE !mxE.
Qed.

(** C6: for a triangular factor with a positive diagonal, the second
    component returned by [inv_quad_logdet(logdet=True)] is
    2 * sum (log (diagonal of the canonical factor)), which is
    log (det (to_dense())).  The logarithm is any function [log] that turns
    products of positive numbers into sums. *)
Theorem logdet_correct self (u reduce_inv_quad : bool) :
  Tri.triangular (Chol.root self) ->
  (forall b i, 0 < Tri.tensor (Chol.root self) b i i) ->
  exists ld : tensor0 F bs,
    [/\ Chol.inv_quad_logdet_chol log self None true reduce_inv_quad =
          Ok (None, Some (Tensor0 ld)),
        forall b, ld b =
          2%:R * \sum_i log (Tri._diagonal (Chol._cholesky self u) b 0 i)
      & forall b, ld b = log (\det (Chol.to_dense self b))].
Proof.
move=> /forallP trigR posR.
exists [ffun b => \sum_j log (Chol._chol_diag self b 0 j ^+ 2)]; split.
- rewrite /Chol.inv_quad_logdet_chol /Chol.inv_quad_logdet.
  by rewrite /LinearOperator.is_square /= eqxx.
- move=> b; rewrite ffunE mulr_sumr; apply: eq_bigr => i _.
  by rewrite cholesky_diagonal /Chol._chol_diag /Tri._diagonal ffunE mxE log_sqr.
- move=> b; rewrite ffunE chol_det tri_det // expr2 logM ?prodr_gt0 //.
  rewrite log_prod // -big_split /=; apply: eq_bigr => i _.
  by rewrite /Chol._chol_diag /Tri._diagonal ffunE mxE expr2 logM.
Qed.

End LogDet.

(** ** The guard of [inv_quad_logdet] *)

Section Guard.

Variables tensor_t result_t : Type.
Variable tensor_shape : tensor_t -> seq nat.
Variable self_size : LinearOperator.size.
Variable self_class_name : string.
Variable self_inv_quad : tensor_t -> bool -> result result_t.
Variable self_logdet_term : result_t.

Notation inv_quad_logdet :=
  (Chol.inv_quad_logdet tensor_shape self_size self_class_name self_inv_quad
     self_logdet_term).

Lemma dim_m1_shape :
  dim_m1 (LinearOperator.shape self_size) = LinearOperator.ncols self_size.
Proof. by rewrite /dim_m1 /LinearOperator.shape rev_cat. Qed.

Lemma dim_size :
  LinearOperator.dim self_size = (size (LinearOperator.batch_shape self_size)).+2.
Proof. by rewrite /LinearOperator.dim /ndim /LinearOperator.shape size_cat addn2. Qed.

(** X17: the checks of [inv_quad_logdet] follow the shape rule of the
    specification: the structural error with the class name and the size
    when the operator is not square, a shape-mismatch error with both shapes
    when a right-hand side is given and is not compatible.  Once the checks
    have passed, an error of [inv_quad] is passed on; otherwise the pair is
    returned, each entry being [None] unless it was requested. *)
Theorem inv_quad_logdet_decision_table (inv_quad_rhs : option tensor_t)
    (logdet reduce_inv_quad : bool) :
  let r := inv_quad_logdet inv_quad_rhs logdet reduce_inv_quad in
  let logdet_term := if logdet then Some self_logdet_term else None in
  if ~~ LinearOperator.is_square self_size then
    r = Raise (RuntimeError_not_square self_class_name (LinearOperator.shape self_size))
  else if inv_quad_rhs is Some rhs then
    if rhs_compatible self_size (tensor_shape rhs) then
      r = match self_inv_quad rhs reduce_inv_quad with
          | Ok inv_quad_term => Ok (Some inv_quad_term, logdet_term)
          | Raise e => Raise e
          end
    else
      exists2 e, r = Raise e
        & identifies_shapes e (LinearOperator.shape self_size) (tensor_shape rhs)
  else r = Ok (None, logdet_term).
Proof.
rewrite /Chol.inv_quad_logdet /=; case: (LinearOperator.is_square self_size) => //=.
case: inv_quad_rhs => [rhs|] //; rewrite /rhs_compatible dim_m1_shape dim_size.
rewrite -size_eq0 -(eqSS _ 0) -(eqSS _ 1).
set d := (size _).+2; set r := ndim _; set c := LinearOperator.ncols _.
have mismatch e : identifies_shapes e (LinearOperator.shape self_size) (tensor_shape rhs) ->
    exists2 e', Raise e = Raise e' :> result (option result_t * option result_t)
      & identifies_shapes e' (LinearOperator.shape self_size) (tensor_shape rhs).
  by move=> ok; exists e.
have accepted :
    match
      match self_inv_quad rhs reduce_inv_quad with
      | Ok inv_quad_term => Ok (Some inv_quad_term)
      | Raise e => Raise e
      end
    with
    | Ok inv_quad_term =>
        Ok (inv_quad_term, if logdet then Some self_logdet_term else None)
    | Raise e => Raise e
    end =
    match self_inv_quad rhs reduce_inv_quad with
    | Ok inv_quad_term =>
        Ok (Some inv_quad_term, if logdet then Some self_logdet_term else None)
    | Raise e => Raise e
    end.
  by case: (self_inv_quad rhs reduce_inv_quad).
case d2: (d == 2%N); case r1: (r == 1%N) => /=; rewrite ?orbF.
- rewrite (eqP d2) (eqP r1) /=.
  by case: (c == numel _) => //=; apply: mismatch; rewrite /= !eqxx.
- by case: (d == r) => /=; [case: (c == dim_m2 _) => //=|];
    apply: mismatch; rewrite /= !eqxx.
- by case: (d == r) => /=; [case: (c == dim_m2 _) => //=|];
    apply: mismatch; rewrite /= !eqxx.
- by case: (d == r) => /=; [case: (c == dim_m2 _) => //=|];
    apply: mismatch; rewrite /= !eqxx.
Qed.

End Guard.

(** The checks on concrete shapes, with the shape itself as right-hand side,
    a one-point result type and an [inv_quad] that returns. *)

Example guard_vector_accepted :
  Chol.inv_quad_logdet id (LinearOperator.Size [::] 3 3) "CholLinearOperator"
    (fun _ _ => Ok tt) tt (Some [:: 3%N]) false true = Ok (Some tt, None).
Proof. by []. Qed.

Example guard_vector_wrong_length :
  Chol.inv_quad_logdet id (LinearOperator.Size [::] 3 3) "CholLinearOperator"
    (fun _ _ => Ok tt) tt (Some [:: 4%N]) true true =
  Raise (RuntimeError_cannot_multiply [:: 3%N; 3%N] [:: 4%N]).
Proof. by []. Qed.

Example guard_vector_against_batch :
  Chol.inv_quad_logdet id (LinearOperator.Size [:: 2%N] 3 3) "CholLinearOperator"
    (fun _ _ => Ok tt) tt (Some [:: 3%N]) true true =
  Raise (RuntimeError_ndim [:: 2%N; 3%N; 3%N] [:: 3%N]).
Proof. by []. Qed.

Example guard_rows_mismatch :
  Chol.inv_quad_logdet id (LinearOperator.Size [:: 2%N] 3 3) "CholLinearOperator"
    (fun _ _ => Ok tt) tt (Some [:: 2%N; 4%N; 1%N]) true true =
  Raise (RuntimeError_cannot_multiply [:: 2%N; 3%N; 3%N] [:: 2%N; 4%N; 1%N]).
Proof. by []. Qed.

Example guard_not_square :
  Chol.inv_quad_logdet id (LinearOperator.Size [::] 2 3) "CholLinearOperator"
    (fun _ _ => Ok tt) tt (Some [:: 3%N; 1%N]) true true =
  Raise (RuntimeError_not_square "CholLinearOperator" [:: 2%N; 3%N]).
Proof. by []. Qed.

Example guard_logdet_only :
  Chol.inv_quad_logdet id (LinearOperator.Size [:: 2%N] 3 3) "CholLinearOperator"
    (fun _ _ => Ok tt) tt None true true = Ok (None, Some tt).
Proof. by []. Qed.

(** ** Construction from a bare array *)

Section Init.

Variable F : fieldType.
Variable bs : seq nat.
Variable n : nat.
Implicit Types chol : tensor2 F bs n n.
Lemma tril_fixed chol : (tril chol == chol) = is_lower chol.
Proof.
apply/eqP/forallP => [eq_chol b|trig].
  apply/is_trig_mxP => i j lt_ij; rewrite -eq_chol ffunE mxE.
  by rewrite leqNgt lt_ij.
apply/ffunP => b; apply/matrixP => i j; rewrite ffunE mxE.
by case: leqP => // lt_ij; have /is_trig_mxP/(_ _ _ lt_ij) := trig b.
Qed.

Lemma triu_fixed chol : (triu chol == chol) = is_upper chol.
Proof.
apply/eqP/forallP => [eq_chol b|trig].
  apply/is_trig_mxP => i j lt_ij; rewrite mxE -eq_chol ffunE mxE.
  by rewrite leqNgt lt_ij.
apply/ffunP => b; apply/matrixP => i j; rewrite ffunE mxE.
by case: leqP => // lt_ji; have /is_trig_mxP/(_ _ _ lt_ji) := trig b; rewrite mxE.
Qed.

(** C8, as amended: the deprecated path issues the deprecation warning,
    checks only that the array is lower or upper triangular (the diagonal is
    not inspected), wraps it as a lower factor, or else as an upper factor,
    and raises the ValueError when it is neither. *)
Theorem init_dense chol (upper : bool) :
  Chol.__init__ (Chol.Dense chol) upper =
  ([:: DeprecationWarning Chol.deprecation_msg],
   if is_lower chol then Ok (Chol.Make (Tri.Make chol false) upper)
   else if is_upper chol then Ok (Chol.Make (Tri.Make chol true) upper)
   else Raise (ValueError "chol must be either lower or upper triangular")).
Proof.
rewrite /Chol.__init__ tril_fixed triu_fixed.
by case: (is_lower chol); case: (is_upper chol).
Qed.

(** C10: the lower test comes first, so an array that is both lower and
    upper triangular (a diagonal matrix) is wrapped as a lower factor
    whatever the [upper] flag of the constructor. *)
Theorem init_diagonal_lower chol (upper : bool) :
  is_lower chol -> is_upper chol ->
  Chol.__init__ (Chol.Dense chol) upper =
  ([:: DeprecationWarning Chol.deprecation_msg],
   Ok (Chol.Make (Tri.Make chol false) upper)).
Proof. by move=> lo _; rewrite /Chol.__init__ tril_fixed lo. Qed.

End Init.

(** ** The kernel as a substitution *)

Section Substitution.

Variable F : fieldType.
Variable bs : seq nat.
Variable n : nat.
Implicit Types R : Tri.TriangularLinearOperator F bs n.
Implicit Types self : Chol.CholLinearOperator F bs n.

Lemma tagged_triangle_well_tagged R :
  Tri.well_tagged R -> Tri.tagged_triangle R = Tri.tensor R.
Proof.
rewrite /Tri.well_tagged /Tri.tagged_triangle; case: (Tri.upper R).
  by rewrite -triu_fixed => /eqP.
by rewrite -tril_fixed => /eqP.
Qed.

(** On a factor whose tag agrees with its entries, the substitution is the
    exact solve. *)
Lemma substitution_well_tagged k R (rhs : tensor2 F bs n k) :
  Tri.well_tagged R -> Tri.substitution R rhs = Tri.solve R rhs.
Proof.
by move=> /tagged_triangle_well_tagged eqR; rewrite /Tri.substitution eqR.
Qed.

Lemma inverse_by_substitution_well_tagged self :
  Tri.well_tagged (Chol.root self) ->
  Chol.inverse_by_substitution self = Chol.inverse self.
Proof.
move=> tagged; rewrite /Chol.inverse_by_substitution /Chol.inverse.
by rewrite /Tri.inverse_by_substitution substitution_well_tagged.
Qed.

End Substitution.

(** ** The statements on concrete inputs *)

Lemma lower_20_13_invertible : Tri.invertible (Tri.Make lower_20_13 false).
Proof.
apply/tri_invertibleP => b; rewrite /= ffunE; apply: trig_unitmx.
  by apply/is_trig_mxP => i j; rewrite mxE; case: i j => [[|[|?]] ?] [[|[|?]] ?].
by move=> i; rewrite mxE; case: i => [[|[|?]] ?].
Qed.

Lemma upper_11_01_inverse :
  invmx (mx_of_rows 2 2 [:: [:: 1; 1]; [:: 0; 1]] : 'M[rat]_2) =
  mx_of_rows 2 2 [:: [:: 1; -1]; [:: 0; 1]].
Proof.
apply: invmx_from_mulmx1; apply/matrixP => i j.
rewrite !mxE !big_ord_recl big_ord0 !mxE /=.
by ord2 i; ord2 j.
Qed.

Lemma log2adicM (x y : rat) :
  0 < x -> 0 < y -> log2adic (x * y) = log2adic x + log2adic y.
Proof.
move=> x0 y0; have xy0 : 0 < x * y by rewrite mulr_gt0.
have pos_num (z : rat) : 0 < z -> (0 < `|numq z|)%N.
  by move=> z0; rewrite absz_gt0 numq_eq0 gt_eqF.
have pos_den (z : rat) : (0 < `|denq z|)%N by rewrite absz_gt0 denq_eq0.
have eq_int : numq (x * y) * (denq x * denq y) = numq x * numq y * denq (x * y).
  by apply: (@intr_inj rat); rewrite !rmorphM /= !numqE; ring.
have /(congr1 (logn 2)) := congr1 absz eq_int.
rewrite !abszM !lognM ?muln_gt0 ?pos_num ?pos_den // => eq_log.
have : (logn 2 `|numq (x * y)|)%:R
         + ((logn 2 `|denq x|)%:R + (logn 2 `|denq y|)%:R) =
       (logn 2 `|numq x|)%:R + (logn 2 `|numq y|)%:R
         + (logn 2 `|denq (x * y)|)%:R :> rat.
  by rewrite -!natrD eq_log.
by rewrite /log2adic; lra.
Qed.

Lemma scenario_to_dense :
  Chol.to_dense scenario =
  unbatched (mx_of_rows 2 2 [:: [:: 4%:R; 2%:R]; [:: 2%:R; 10%:R]]).
Proof.
apply/ffunP => b; apply/matrixP => i j.
rewrite to_denseE /= !ffunE !mxE !big_ord_recl big_ord0 !mxE /=.
by ord2 i; ord2 j.
Qed.

Lemma scenario_diagonal :
  Chol._diagonal scenario = unbatched (mx_of_rows 1 2 [:: [:: 4%:R; 10%:R]]).
Proof.
apply/ffunP => b; apply/rowP => j.
rewrite _diagonalE /= !ffunE mxE !big_ord_recl big_ord0 !mxE /=.
by ord2 j.
Qed.

Lemma scenario_triangular : Tri.triangular (Chol.root scenario).
Proof.
apply/forallP => b; apply/orP; left; rewrite /= ffunE.
by apply/is_trig_mxP => i j; rewrite mxE; ord2 i; ord2 j.
Qed.

Lemma scenario_positive b i : 0 < Tri.tensor (Chol.root scenario) b i i.
Proof. by rewrite /= ffunE mxE; ord2 i. Qed.


(** C1 fails for the upper orientation.  For R = [[1, 2], [0, 3]] with
    [upper = True] the represented matrix is R^T R = [[1, 2], [2, 13]], whose
    diagonal is [1, 13], the sums of squares along the columns of R;
    [_diagonal] returns the sums along the rows, [5, 9]. *)
Theorem diagonal_upper_row_sums :
  let self := Chol.Make (Tri.Make upper_12_03 true) true in
  [/\ Chol.to_dense self =
        unbatched (mx_of_rows 2 2 [:: [:: 1; 2%:R]; [:: 2%:R; 13%:R]]),
      diagonal (Chol.to_dense self) = unbatched (mx_of_rows 1 2 [:: [:: 1; 13%:R]])
    & Chol._diagonal self = unbatched (mx_of_rows 1 2 [:: [:: 5%:R; 9%:R]])].
Proof.
split; apply/ffunP => b; apply/matrixP => i j.
- rewrite to_denseE /= !ffunE !mxE !big_ord_recl big_ord0 !mxE /=.
  by ord2 i; ord2 j.
- rewrite [i]ord1 diagonal_to_denseE /= !ffunE mxE !big_ord_recl big_ord0 !mxE /=.
  by ord2 j.
- rewrite [i]ord1 _diagonalE /= !ffunE mxE !big_ord_recl big_ord0 !mxE /=.
  by ord2 j.
Qed.

(** C2 fails for the upper orientation.  For R = [[1, 1], [0, 1]] with
    [upper = True] the represented matrix is A = R^T R = [[1, 1], [1, 2]];
    the operator returned by [root_inv_decomposition] has the dense form
    R^-T R^-1 = [[1, -1], [-1, 2]], and its product with A is
    [[0, -1], [1, 3]], not the identity. *)
Theorem root_inv_decomposition_upper :
  let self := Chol.Make (Tri.Make upper_11_01 true) true in
  let S := Chol.root_inv_decomposition self None None None in
  [/\ Chol.to_dense self = unbatched (mx_of_rows 2 2 [:: [:: 1; 1]; [:: 1; 2%:R]]),
      Root.to_dense S = unbatched (mx_of_rows 2 2 [:: [:: 1; -1]; [:: -1; 2%:R]])
    & matmul (Root.to_dense S) (Chol.to_dense self) =
      unbatched (mx_of_rows 2 2 [:: [:: 0; -1]; [:: 1; 3%:R]])].
Proof.
move=> self S.
have dense : Chol.to_dense self = unbatched (mx_of_rows 2 2 [:: [:: 1; 1]; [:: 1; 2%:R]]).
  apply/ffunP => b; apply/matrixP => i j.
  rewrite to_denseE /= !ffunE !mxE !big_ord_recl big_ord0 !mxE /=.
  by ord2 i; ord2 j.
have root : Root.to_dense S = unbatched (mx_of_rows 2 2 [:: [:: 1; -1]; [:: -1; 2%:R]]).
  apply/ffunP => b; rewrite /Root.to_dense /S /= !ffunE mulmx1 trmxK.
  rewrite upper_11_01_inverse; apply/matrixP => i j.
  rewrite !mxE !big_ord_recl big_ord0 !mxE /=.
  by ord2 i; ord2 j.
split=> //; rewrite root dense; apply/ffunP => b; apply/matrixP => i j.
rewrite !ffunE !mxE !big_ord_recl big_ord0 !mxE /=.
by ord2 i; ord2 j.
Qed.

Lemma lower_20_13_inverse :
  invmx (mx_of_rows 2 2 [:: [:: 2%:R; 0]; [:: 1; 3%:R]] : 'M[rat]_2) =
  mx_of_rows 2 2 [:: [:: 2%:R^-1; 0]; [:: - 6%:R^-1; 3%:R^-1]].
Proof.
apply: invmx_from_mulmx1; apply/matrixP => i j.
rewrite !mxE !big_ord_recl big_ord0 !mxE /=.
by ord2 i; ord2 j.
Qed.

Lemma scenario_well_tagged : Tri.well_tagged (Chol.root scenario).
Proof.
apply/forallP => b; rewrite /= ffunE.
by apply/is_trig_mxP => i j; rewrite mxE; ord2 i; ord2 j.
Qed.

Lemma inverse_scenario_root :
  Chol.root (Chol.inverse scenario) = Tri.Make lower_20_13_inv true.
Proof.
have -> : Chol.root (Chol.inverse scenario) =
          Tri.Make (Tri.tensor (Tri.inverse (Chol.root scenario))) true by [].
congr Tri.Make; apply/ffunP => b.
rewrite tri_inverseE /= [in LHS]ffunE [RHS]ffunE.
exact: lower_20_13_inverse.
Qed.

(** C3 fails on the round trip.  [inverse()] stores the inverted factor
    where it stands and flips its tag: for the scenario, R = [[2, 0], [1, 3]]
    tagged lower, the factor of [inverse()] is
    R^-1 = [[1/2, 0], [-1/6, 1/3]], lower triangular and tagged upper.  The
    second [inverse()] runs the substitution on the upper triangle of that
    factor, diag(1/2, 1/3), and represents diag(4, 9), not
    [[4, 2], [2, 10]]. *)
Theorem inverse_round_trip_mistagged :
  let once := Chol.inverse scenario in
  let twice := Chol.inverse_by_substitution once in
  [/\ Chol.inverse_by_substitution scenario = once,
      Chol.root once = Tri.Make lower_20_13_inv true,
      Tri.well_tagged (Chol.root once) = false,
      Chol.to_dense twice = diag_49
    & Chol.to_dense scenario =
      unbatched (mx_of_rows 2 2 [:: [:: 4%:R; 2%:R]; [:: 2%:R; 10%:R]])].
Proof.
move=> once twice; split.
- exact/inverse_by_substitution_well_tagged/scenario_well_tagged.
- exact: inverse_scenario_root.
- rewrite inverse_scenario_root /Tri.well_tagged /=.
  apply/negbTE/forallPn; exists ord0; apply/negP => /is_trig_mxP.
  move/(_ ord0 (lift ord0 ord0) isT).
  by rewrite !mxE ffunE mxE.
- have subE : Tri.tensor (Tri.inverse_by_substitution (Chol.root once)) = diag_23.
    rewrite /once inverse_scenario_root; apply/ffunP => b.
    rewrite /Tri.inverse_by_substitution /= ffunE [eye _ _ _ b]ffunE mulmx1.
    rewrite [RHS]ffunE; apply: invmx_from_mulmx1; apply/matrixP => i j.
    rewrite /Tri.tagged_triangle /= !mxE !big_ord_recl big_ord0.
    rewrite !ffunE !mxE /=.
    by ord2 i; ord2 j.
  apply/ffunP => b; rewrite to_denseE.
  have -> : Tri.tensor (Chol.root twice) = diag_23 by exact: subE.
  have -> : Chol.upper twice = false by [].
  apply/matrixP => i j; rewrite /= !ffunE !mxE !big_ord_recl big_ord0 !mxE /=.
  by ord2 i; ord2 j.
- exact: scenario_to_dense.
Qed.



(** Every 1-D right-hand side of the right length passes the checks of an
    unbatched operator, and none comes back from [inv_quad]. *)
Lemma inv_quad_logdet_vector_accepted (F : fieldType) (n : nat) (log : F -> F)
    (self : Chol.CholLinearOperator F [::] n) (v : 'rV[F]_n)
    (logdet reduce_inv_quad : bool) :
  rhs_compatible (Chol.size self) (Chol.rhs_shape (Chol.Rhs1 [::] v)) /\
  Chol.inv_quad_logdet_any_rank log self (Some (Chol.Rhs1 [::] v))
    logdet reduce_inv_quad =
  Raise (IndexError "Dimension out of range (expected to be in range of [-1, 0], but got -2)").
Proof.
split; first by rewrite /rhs_compatible /= muln1 !eqxx.
rewrite /Chol.inv_quad_logdet_any_rank /Chol.inv_quad_logdet.
by rewrite /LinearOperator.is_square /dim_m1 /= muln1 !eqxx.
Qed.

(** C7 fails on the 1-D right-hand side that the shape rule accepts.  For
    the scenario, of shape [2, 2], and the right-hand side [4, 2] the
    operator is square and the shapes are compatible, no precondition is
    violated; the checks pass, and [inv_quad], which does not unsqueeze,
    raises on the reduction over the second-to-last dimension, whatever is
    requested.  The same right-hand side as a column of shape [2, 1] gives
    the pair. *)
Theorem inv_quad_logdet_vector_raises (log : rat -> rat)
    (logdet reduce_inv_quad : bool) :
  [/\ LinearOperator.is_square (Chol.size scenario),
      rhs_compatible (Chol.size scenario) (Chol.rhs_shape (Chol.Rhs1 [::] rhs_42)),
      Chol.inv_quad_logdet_any_rank log scenario (Some (Chol.Rhs1 [::] rhs_42))
        logdet reduce_inv_quad =
      Raise (IndexError "Dimension out of range (expected to be in range of [-1, 0], but got -2)")
    & Chol.inv_quad_logdet_any_rank log scenario (Some (Chol.Rhs2 column_42))
        logdet reduce_inv_quad =
      Ok (Some (Chol.inv_quad scenario column_42 reduce_inv_quad),
          if logdet then Some (Chol.logdet_term log scenario) else None)].
Proof. by []. Qed.



(** C9, as stated, fails on an operator of shape [0, 0]: the solved tensor of
    shape [0, 3] has no element, yet the per-column result has three, and
    the reduction takes place. *)
Lemma inv_quad_empty_solved_reduced :
  [/\ numel (shape (Tensor2 (Chol.solved empty_operator rhs_0x3))) = 0%N,
      Chol.inv_quad empty_operator rhs_0x3 true = Tensor0 [ffun _ => 0]
    & shape (Chol.inv_quad empty_operator rhs_0x3 true) = [::]].
Proof.
rewrite inv_quadE /=; split=> //.
congr Tensor0; apply/ffunP => b; rewrite !ffunE big1 // => j _.
by rewrite mxE big_ord0.
Qed.

(** C9 as amended, on a batch of size zero. *)
Lemma inv_quad_empty_unreduced_witness :
  [/\ Chol.inv_quad empty_batch_operator empty_batch_rhs true =
        Tensor1 (sum_m2 (pow2 (Chol.solved empty_batch_operator empty_batch_rhs))),
      shape (Chol.inv_quad empty_batch_operator empty_batch_rhs true) = [:: 0%N; 3%N]
    & numel (shape (Chol.inv_quad empty_batch_operator empty_batch_rhs true)) = 0%N].
Proof. exact: inv_quad_empty_unreduced. Defined.

(** C6 at the scenario, with the 2-adic valuation as logarithm. *)
Lemma logdet_correct_witness :
  exists ld : tensor0 rat [::],
    [/\ Chol.inv_quad_logdet_chol log2adic scenario None true true =
          Ok (None, Some (Tensor0 ld)),
        forall b, ld b =
          2%:R * \sum_i log2adic (Tri._diagonal (Chol._cholesky scenario false) b 0 i)
      & forall b, ld b = log2adic (\det (Chol.to_dense scenario b))].
Proof.
apply: logdet_correct; first exact: log2adicM.
- exact: scenario_triangular.
- exact: scenario_positive.
Defined.

(** C8, as stated, fails on the zero matrix: it is accepted and wrapped as a
    lower factor although its diagonal is zero. *)
Lemma init_zero_accepted :
  Chol.__init__ (Chol.Dense zero_2x2) false =
    ([:: DeprecationWarning Chol.deprecation_msg],
     Ok (Chol.Make (Tri.Make zero_2x2 false) false)) /\
  diagonal zero_2x2 = unbatched 0.
Proof.
split; last by apply/ffunP => b; apply/rowP => i; rewrite !ffunE !mxE.
rewrite /Chol.__init__ tril_fixed.
suff -> : is_lower zero_2x2 by [].
by apply/forallP => b; apply/is_trig_mxP => i j _; rewrite ffunE mxE.
Qed.

Lemma diag_23_lower : is_lower diag_23.
Proof.
apply/forallP => b; apply/is_trig_mxP => i j; rewrite ffunE mxE.
by ord2 i; ord2 j.
Qed.

Lemma diag_23_upper : is_upper diag_23.
Proof.
apply/forallP => b; apply/is_trig_mxP => i j; rewrite ffunE !mxE.
by ord2 i; ord2 j.
Qed.

(** C10 on diag(2, 3) with [upper = True]. *)
Lemma init_diagonal_lower_witness :
  Chol.__init__ (Chol.Dense diag_23) true =
  ([:: DeprecationWarning Chol.deprecation_msg],
   Ok (Chol.Make (Tri.Make diag_23 false) true)).
Proof. exact: (init_diagonal_lower true diag_23_lower diag_23_upper). Defined.

(** * Further properties of the operator *)

(** ** The represented matrix and its canonical factors *)

Section Represented.

Variable F : fieldType.
Variable bs : seq nat.
Variable n : nat.
Implicit Types self : Chol.CholLinearOperator F bs n.

(** X1: [_diagonal] never reads [self.upper]: in both orientations it is the
    diagonal of root @ root^T, the dense form of the lower-oriented operator
    on the same factor. *)
Theorem diagonal_ignores_orientation self :
  Chol._diagonal self =
  diagonal (Chol.to_dense (Chol.Make (Chol.root self) false)).
Proof.
apply/ffunP => b; apply/rowP => i.
by rewrite _diagonalE diagonal_to_denseE.
Qed.

(** X2: the factors handed out by [_cholesky] reproduce the operator: with
    L = _cholesky(upper=False) the dense form is L L^T, with
    U = _cholesky(upper=True) it is U^T U, whatever the orientation of the
    operator, and the two factors are transposes of each other. *)
Theorem cholesky_factorizes self :
  [/\ let L := Tri.to_dense (Chol._cholesky self false) in
      matmul L (mT L) = Chol.to_dense self,
      let U := Tri.to_dense (Chol._cholesky self true) in
      matmul (mT U) U = Chol.to_dense self
    & forall u, Tri._transpose_nonbatch (Chol._cholesky self u) =
                Chol._cholesky self (~~ u)].
Proof.
have mTK m k (A : tensor2 F bs m k) : mT (mT A) = A.
  by apply/ffunP => b; rewrite !ffunE trmxK.
have trK (R : Tri.TriangularLinearOperator F bs n) :
    Tri._transpose_nonbatch (Tri._transpose_nonbatch R) = R.
  by case: R => t u; rewrite /Tri._transpose_nonbatch /= mTK negbK.
split.
- by rewrite /Chol._cholesky /Chol.to_dense; case: (Chol.upper self) => /=;
    rewrite /Tri.to_dense /= ?mTK.
- by rewrite /Chol._cholesky /Chol.to_dense; case: (Chol.upper self) => /=;
    rewrite /Tri.to_dense /= ?mTK.
- by move=> u; rewrite /Chol._cholesky; case: u; case: (Chol.upper self);
    rewrite /= ?trK.
Qed.

(** X3: the dense form is a symmetric matrix in both orientations. *)
Theorem to_dense_symmetric self : mT (Chol.to_dense self) = Chol.to_dense self.
Proof.
apply/ffunP => b; rewrite ffunE to_denseE /=.
by case: (Chol.upper self); rewrite trmx_mul trmxK.
Qed.

End Represented.

(** ** Signs, over an ordered field *)

Section Signs.

Variable F : realFieldType.
Variable bs : seq nat.
Variable n : nat.
Implicit Types self : Chol.CholLinearOperator F bs n.

Lemma row_gram_ge0 m (y : 'rV[F]_m) : 0 <= (y *m y^T) 0 0.
Proof.
rewrite mxE; apply: sumr_ge0 => j _.
by rewrite mxE -expr2 sqr_ge0.
Qed.

(** X4: the represented matrix is positive semi-definite by construction:
    x A x^T is never negative, in both orientations and for every factor. *)
Theorem to_dense_psd self b (x : 'rV[F]_n) :
  0 <= (x *m Chol.to_dense self b *m x^T) 0 0.
Proof.
rewrite to_denseE /=; set R := Tri.tensor _ b; case: (Chol.upper self).
  have -> : x *m (R^T *m R) *m x^T = (x *m R^T) *m (x *m R^T)^T.
    by rewrite trmx_mul trmxK !mulmxA.
  exact: row_gram_ge0.
have -> : x *m (R *m R^T) *m x^T = (x *m R) *m (x *m R)^T.
  by rewrite trmx_mul !mulmxA.
exact: row_gram_ge0.
Qed.

(** X8: [inv_quad] returns sums of squares: no entry of its result is
    negative, whatever the orientation, the reduce flag and the factor. *)
Theorem inv_quad_ge0 k self (T : tensor2 F bs n k) (reduce_inv_quad : bool) :
  match Chol.inv_quad self T reduce_inv_quad with
  | Tensor0 x => forall b, 0 <= x b
  | Tensor1 _ v => forall b j, 0 <= v b 0 j
  | Tensor2 _ _ _ => False
  end.
Proof.
have term_ge0 b j : 0 <= sum_m2 (pow2 (Chol.solved self T)) b 0 j.
  rewrite ffunE mxE; apply: sumr_ge0 => i _.
  by rewrite ffunE mxE sqr_ge0.
rewrite inv_quadE; case: ifP => _ // b.
by rewrite ffunE; apply: sumr_ge0 => j _.
Qed.

End Signs.

(** ** Solves, inverse and quadratic form together *)

Section Composition.

Variable F : fieldType.
Variable bs : seq nat.
Variable n : nat.
Implicit Types self : Chol.CholLinearOperator F bs n.

Lemma to_dense_inverse_invmx self b :
  Tri.invertible (Chol.root self) ->
  Chol.to_dense (Chol.inverse self) b = invmx (Chol.to_dense self b).
Proof.
move=> /tri_invertibleP/(_ b) uR; rewrite to_dense_inverseE to_denseE /=.
by case: (Chol.upper self); rewrite ?invmx_gram_upper ?invmx_gram_lower.
Qed.



(** X6: [solve] agrees with [inverse]: solving against a right-hand side is
    multiplying it by the dense form of the inverse operator.  The factor is
    assumed invertible. *)
Theorem solve_is_inverse_matmul k self (B : tensor2 F bs n k) :
  Tri.invertible (Chol.root self) ->
  Chol.solve self (Chol.Rhs2 B) (None : option (tensor2 F bs n n)) =
  Tensor2 (matmul (Chol.to_dense (Chol.inverse self)) B).
Proof.
move=> uR; rewrite /Chol.solve; congr Tensor2; apply/ffunP => b.
by rewrite tri_cholesky_solveE // ffunE to_dense_inverse_invmx // to_denseE.
Qed.

(** X7: without reduction [inv_quad] returns, for each column t of the
    tensor, the quadratic form t^T A^-1 t: the diagonal of
    T^T @ inverse().to_dense() @ T.  This holds for an empty tensor too.
    The factor is assumed invertible. *)
Theorem inv_quad_unreduced_diagonal k self (T : tensor2 F bs n k) :
  Tri.invertible (Chol.root self) ->
  Chol.inv_quad self T false =
  Tensor1 (diagonal (matmul (matmul (mT T) (Chol.to_dense (Chol.inverse self))) T)).
Proof.
move=> uR; rewrite inv_quadE andbF; congr Tensor1.
apply/ffunP => b; apply/rowP => j.
have -> : diagonal (matmul (matmul (mT T) (Chol.to_dense (Chol.inverse self))) T) b 0 j =
          ((Chol.solved self T b)^T *m Chol.solved self T b) j j.
  by rewrite solved_gram // -to_dense_inverse_invmx // !ffunE mxE.
rewrite !ffunE !mxE; apply: eq_bigr => i _.
by rewrite !mxE expr2.
Qed.

(** X11: [root_inv_decomposition] never reads [self.upper]: the operator it
    returns has the dense form of [inverse()] taken on the lower-oriented
    operator with the same factor. *)
Theorem root_inv_decomposition_of_lower self method initial_vectors test_vectors :
  Root.to_dense
    (Chol.root_inv_decomposition self method initial_vectors test_vectors) =
  Chol.to_dense (Chol.inverse (Chol.Make (Chol.root self) false)).
Proof.
by apply/ffunP => b; rewrite root_inv_decompositionE to_dense_inverseE.
Qed.

(** X12: for a triangular factor the determinant of the represented matrix
    is the squared product of [_chol_diag], and the factor is invertible
    exactly when no entry of [_chol_diag] is zero. *)
Theorem chol_diag_determinant self :
  Tri.triangular (Chol.root self) ->
  (forall b, \det (Chol.to_dense self b) =
             (\prod_i Chol._chol_diag self b 0 i) ^+ 2) /\
  Tri.invertible (Chol.root self) =
    [forall b, forall i, Chol._chol_diag self b 0 i != 0].
Proof.
move=> /forallP trigR.
have detR b : \det (Tri.tensor (Chol.root self) b) =
              \prod_i Chol._chol_diag self b 0 i.
  have -> : \prod_i Chol._chol_diag self b 0 i =
            \prod_i Tri.tensor (Chol.root self) b i i.
    by apply: eq_bigr => i _; rewrite /Chol._chol_diag /Tri._diagonal ffunE mxE.
  case/orP: (trigR b) => [/det_trig //|/det_trig]; rewrite det_tr => ->.
  by apply: eq_bigr => i _; rewrite mxE.
split=> [b|].
  by rewrite to_denseE /=; case: (Chol.upper self);
    rewrite det_mulmx det_tr detR expr2.
apply: eq_forallb => b; rewrite unitmxE unitfE detR.
by apply/prodf_neq0/forallP => [nz i|nz i _]; exact: nz.
Qed.

End Composition.

(** ** The guard on a Cholesky operator, and construction *)

Section OnCholesky.

Variable F : fieldType.
Variable bs : seq nat.
Variable n : nat.
Implicit Types self : Chol.CholLinearOperator F bs n.

(** X9: a Cholesky operator is square, and a right-hand side of shape
    [bs ++ [:: n; k]] passes the shape checks whatever [bs], [n] and [k]:
    on such arguments [inv_quad_logdet] never raises, its first entry is
    [inv_quad] of the right-hand side under the same reduce flag, its second
    the log-determinant term, each present exactly when requested. *)
Theorem inv_quad_logdet_chol_returns (log : F -> F) self
    (inv_quad_rhs : option (Chol.columns F bs n)) (logdet reduce_inv_quad : bool) :
  Chol.inv_quad_logdet_chol log self inv_quad_rhs logdet reduce_inv_quad =
  Ok (omap (fun t => Chol.inv_quad self (projT2 t) reduce_inv_quad) inv_quad_rhs,
      if logdet then Some (Chol.logdet_term log self) else None).
Proof.
rewrite /Chol.inv_quad_logdet_chol /Chol.inv_quad_logdet.
rewrite /LinearOperator.is_square /= eqxx /=.
case: inv_quad_rhs => [[k T]|] //=.
rewrite /Chol.columns_shape /LinearOperator.dim /LinearOperator.shape /=.
rewrite /ndim !size_cat /= !addn2 eqxx /= andbF.
by rewrite /dim_m1 /dim_m2 !rev_cat /= eqxx.
Qed.

(** X10: when the construction from a bare array succeeds, the factor it
    wraps holds the array unchanged under a tag that agrees with its
    entries, and the operator carries the [upper] flag as given, which the
    triangularity test neither reads nor adjusts. *)
Theorem init_dense_well_tagged (chol : tensor2 F bs n n) (upper : bool)
    warnings self :
  Chol.__init__ (Chol.Dense chol) upper = (warnings, Ok self) ->
  [/\ Tri.tensor (Chol.root self) = chol,
      Tri.well_tagged (Chol.root self)
    & Chol.upper self = upper].
Proof.
rewrite /Chol.__init__ tril_fixed triu_fixed.
case lo: (is_lower chol); first by case=> _ <-.
by case up: (is_upper chol) => //; case=> _ <-.
Qed.

End OnCholesky.

(** ** Two representations of one matrix *)

Section Transposed.

Variable F : fieldType.
Variable bs : seq nat.
Variable n : nat.
Implicit Types self : Chol.CholLinearOperator F bs n.

(** X13: the operator on the transposed factor with the flag flipped
    represents the same matrix, and [to_dense], [solve], [inv_quad] and the
    dense form of [inverse] do not tell the two apart. *)
Theorem transposed_representation self k (T : tensor2 F bs n k) p
    (left_tensor : option (tensor2 F bs p n)) (reduce_inv_quad : bool) :
  let self' :=
    Chol.Make (Tri._transpose_nonbatch (Chol.root self)) (~~ Chol.upper self) in
  [/\ Chol.to_dense self' = Chol.to_dense self,
      Chol.solve self' (Chol.Rhs2 T) left_tensor =
        Chol.solve self (Chol.Rhs2 T) left_tensor,
      Chol.inv_quad self' T reduce_inv_quad = Chol.inv_quad self T reduce_inv_quad
    & Chol.to_dense (Chol.inverse self') = Chol.to_dense (Chol.inverse self)].
Proof.
move=> self'.
have trK b : ((Tri.tensor (Chol.root self) b)^T)^T = Tri.tensor (Chol.root self) b.
  exact: trmxK.
have solvedE : Chol.solved self' T = Chol.solved self T.
  apply/ffunP => b; rewrite /Chol.solved /self' /=.
  by case: (Chol.upper self); rewrite /= !ffunE ?ffunE ?trK.
split.
- apply/ffunP => b; rewrite !to_denseE /self' /= ffunE.
  by case: (Chol.upper self); rewrite /= trK.
- have eq_res : Tri._cholesky_solve (Chol.root self') T (Chol.upper self') =
                 Tri._cholesky_solve (Chol.root self) T (Chol.upper self).
    apply/ffunP => b; rewrite /self' /Tri._cholesky_solve /=.
    by case: (Chol.upper self); rewrite /= !ffunE ?ffunE ?trK.
  by rewrite /Chol.solve eq_res.
- by rewrite !inv_quadE solvedE.
- apply/ffunP => b; rewrite !to_dense_inverseE /self' /= ffunE.
  by case: (Chol.upper self); rewrite /= -trmx_inv trmxK.
Qed.

End Transposed.

(** ** The inverse of a triangular factor *)

Section TriangularInverse.

Variable F : fieldType.

Lemma invmx_trig n (A : 'M[F]_n) :
  is_trig_mx A -> A \in unitmx ->
  is_trig_mx (invmx A) /\ forall i, invmx A i i = (A i i)^-1.
Proof.
elim/trigsqmx_ind: n A / => [|n x c B trigB IHB] uA.
  by split=> [|[]//]; apply/is_trig_mxP => - [].
have [ux uB] : x \in unitmx /\ B \in unitmx.
  by move: uA; rewrite !unitmxE det_lblock unitrM => /andP.
have [trigBi diagBi] := IHB uB.
have -> : invmx (block_mx x 0 c B) =
          block_mx (invmx x) 0 (- (invmx B *m c *m invmx x)) (invmx B).
  apply: invmx_from_mulmx1; rewrite mulmx_block !mul0mx !mulmx0 !add0r !addr0.
  rewrite !mulmxV // mulmxN !mulmxA mulmxV // mul1mx subrr.
  by rewrite -scalar_mx_block.
split; first by rewrite is_trig_block_mx // eqxx mx11_is_trig.
move=> i; case: (split_ordP i) => j ->; last by rewrite !block_mxEdr diagBi.
by rewrite !block_mxEul [j]ord1 {1}[x]mx11_scalar invmx_scalar mxE eqxx mulr1n.
Qed.

Lemma invmx_diag_triangular n (A : 'M[F]_n) i :
  is_trig_mx A || is_trig_mx A^T -> A \in unitmx -> invmx A i i = (A i i)^-1.
Proof.
case/orP=> trigA uA; first by have [_ ->] := invmx_trig trigA uA.
have [_ /(_ i)] := invmx_trig trigA (etrans (unitmx_tr A) uA).
by rewrite -trmx_inv !mxE.
Qed.

End TriangularInverse.

Section LogDetInverse.

Variable F : realFieldType.
Variable log : F -> F.
Hypothesis logM : forall x y : F, 0 < x -> 0 < y -> log (x * y) = log x + log y.

Variable bs : seq nat.
Variable n : nat.
Implicit Types self : Chol.CholLinearOperator F bs n.

Lemma logV x : 0 < x -> log x^-1 = - log x.
Proof.
move=> x0; apply/eqP; rewrite -addr_eq0 -logM ?invr_gt0 //.
by rewrite mulVf ?(log1 logM) // (gt_eqF x0).
Qed.

(** X14: for a triangular factor with a positive diagonal, the
    log-determinant term of [inverse()] is the opposite of the one of the
    operator: log det (A^-1) = - log det A, read off the diagonal of the
    inverted factor. *)
Theorem logdet_term_inverse self :
  Tri.triangular (Chol.root self) ->
  (forall b i, 0 < Tri.tensor (Chol.root self) b i i) ->
  exists ld : tensor0 F bs,
    Chol.logdet_term log self = Tensor0 ld /\
    Chol.logdet_term log (Chol.inverse self) = Tensor0 [ffun b => - ld b].
Proof.
move=> /forallP trigR posR.
exists [ffun b => \sum_j log (Chol._chol_diag self b 0 j ^+ 2)]; split=> //.
rewrite /Chol.logdet_term; congr Tensor0; apply/ffunP => b.
rewrite !ffunE -sumrN; apply: eq_bigr => i _.
rewrite mulmx1 !mxE.
have uR : Tri.tensor (Chol.root self) b \in unitmx.
  have nz j : Tri.tensor (Chol.root self) b j j != 0 by rewrite gt_eqF.
  case/orP: (trigR b) => trigRb; first exact: trig_unitmx.
  by rewrite -unitmx_tr; apply: trig_unitmx => // j; rewrite mxE.
by rewrite invmx_diag_triangular // exprVn logV // exprn_gt0.
Qed.

End LogDetInverse.

Section InverseFactor.

Variable F : fieldType.
Variable bs : seq nat.
Variable n : nat.
Implicit Types self : Chol.CholLinearOperator F bs n.

(** X15: [inverse()] inverts the stored factor where it stands: the factor
    of the inverse is triangular on the same side as the stored one, its
    diagonal is the reciprocal of [_chol_diag], and only its orientation
    tag changes, to the flipped [upper] flag.  The factor is assumed
    triangular and invertible. *)
Theorem inverse_factor_triangle self :
  Tri.triangular (Chol.root self) -> Tri.invertible (Chol.root self) ->
  let Rinv := Chol.root (Chol.inverse self) in
  [/\ is_lower (Tri.tensor (Chol.root self)) -> is_lower (Tri.tensor Rinv),
      is_upper (Tri.tensor (Chol.root self)) -> is_upper (Tri.tensor Rinv),
      forall b i, Chol._chol_diag (Chol.inverse self) b 0 i =
                  (Chol._chol_diag self b 0 i)^-1
    & Tri.upper Rinv = ~~ Chol.upper self].
Proof.
move=> /forallP trigR /tri_invertibleP uR Rinv.
have RinvE b : Tri.tensor Rinv b = invmx (Tri.tensor (Chol.root self) b).
  by rewrite /Rinv /= ffunE ffunE mulmx1.
split=> //.
- move=> /forallP lo; apply/forallP => b; rewrite RinvE.
  by have [] := invmx_trig (lo b) (uR b).
- move=> /forallP up; apply/forallP => b; rewrite RinvE trmx_inv.
  by have [] := invmx_trig (up b) (etrans (unitmx_tr _) (uR b)).
- move=> b i; rewrite /Chol._chol_diag /Tri._diagonal.
  have diagE (A : tensor2 F bs n n) : diagonal A b 0 i = A b i i.
    by rewrite ffunE mxE.
  by rewrite !diagE -/Rinv RinvE invmx_diag_triangular.
Qed.

End InverseFactor.

(** ** The further properties on concrete inputs *)



(** X6 at the scenario. *)
Lemma solve_is_inverse_matmul_witness :
  Chol.solve scenario (Chol.Rhs2 column_42) (None : option (tensor2 rat [::] 2 2)) =
  Tensor2 (matmul (Chol.to_dense (Chol.inverse scenario)) column_42).
Proof.
exact: (@solve_is_inverse_matmul _ _ _ 1 scenario column_42 lower_20_13_invertible).
Defined.

(** X7 at the scenario. *)
Lemma inv_quad_unreduced_diagonal_witness :
  Chol.inv_quad scenario column_42 false =
  Tensor1 (diagonal (matmul (matmul (mT column_42)
                                    (Chol.to_dense (Chol.inverse scenario)))
                            column_42)).
Proof.
exact: (@inv_quad_unreduced_diagonal _ _ _ 1 scenario column_42
          lower_20_13_invertible).
Defined.

(** X10 on diag(2, 3) with [upper = True]. *)
Lemma init_dense_well_tagged_witness :
  [/\ Tri.tensor (Chol.root (Chol.Make (Tri.Make diag_23 false) true)) = diag_23,
      Tri.well_tagged (Chol.root (Chol.Make (Tri.Make diag_23 false) true))
    & Chol.upper (Chol.Make (Tri.Make diag_23 false) true) = true].
Proof.
apply: (@init_dense_well_tagged _ _ _ diag_23 true
          [:: DeprecationWarning Chol.deprecation_msg]).
by rewrite /Chol.__init__ tril_fixed diag_23_lower.
Defined.

(** X12 at the scenario. *)
Lemma chol_diag_determinant_witness :
  (forall b, \det (Chol.to_dense scenario b) =
             (\prod_i Chol._chol_diag scenario b 0 i) ^+ 2) /\
  Tri.invertible (Chol.root scenario) =
    [forall b, forall i, Chol._chol_diag scenario b 0 i != 0].
Proof. exact: (chol_diag_determinant scenario_triangular). Defined.

(** X14 at the scenario, with the 2-adic valuation as logarithm. *)
Lemma logdet_term_inverse_witness :
  exists ld : tensor0 rat [::],
    Chol.logdet_term log2adic scenario = Tensor0 ld /\
    Chol.logdet_term log2adic (Chol.inverse scenario) = Tensor0 [ffun b => - ld b].
Proof.
apply: logdet_term_inverse; first exact: log2adicM.
- exact: scenario_triangular.
- exact: scenario_positive.
Defined.

(** X15 at the scenario. *)
Lemma inverse_factor_triangle_witness :
  let Rinv := Chol.root (Chol.inverse scenario) in
  [/\ is_lower (Tri.tensor (Chol.root scenario)) -> is_lower (Tri.tensor Rinv),
      is_upper (Tri.tensor (Chol.root scenario)) -> is_upper (Tri.tensor Rinv),
      forall b i, Chol._chol_diag (Chol.inverse scenario) b 0 i =
                  (Chol._chol_diag scenario b 0 i)^-1
    & Tri.upper Rinv = ~~ Chol.upper scenario].
Proof.
exact: (inverse_factor_triangle scenario_triangular lower_20_13_invertible).
Defined.
